(** * EmpowerMS: the risk model of [Wigley_EmpowerMS.py]

    A shallow embedding of the two functions of the calculator,
    [calculate_risk] and [calculate_smoking_cessation_benefit], together
    with the module-level table [log_odds_coefficients] and the dictionary
    the page builds from the sidebar widgets.

    The Python code is duck-typed over its numbers: the coefficients are
    float literals, the widget values are ints or floats, and [np.exp]
    yields a NumPy float64.  The embedding is therefore written once over an
    arithmetic interface [Arith] and read at two instances:
    - [R_arith], exact real arithmetic, for the algebraic properties of the
      logistic formula;
    - [float_arith], IEEE-754 binary64 as Rocq's primitive floats, for what
      happens at overflow and at division by zero.

    Dictionaries are mutable Python objects.  They live in a store and are
    passed by reference, so that [inputs.copy()] and the two item
    assignments of the cessation counterfactual are visible as such. *)

From Stdlib Require Import String List ZArith Bool Lia Permutation.
From Stdlib Require Import Reals Lra.
From Stdlib Require Import Floats Uint63.
Import ListNotations.

Set Implicit Arguments.
Set Warnings "-inexact-float".
Local Open Scope string_scope.

(** ** Arithmetic interface *)

(** The operations the program applies to numbers.  [of_int] is the
    conversion Python performs when an int meets a float in an arithmetic
    operation; [of_decimal m e] is the float literal whose decimal digits
    are [m] with [e] of them after the point ([0.488] is
    [of_decimal 488 3]). *)
Class Arith (num : Type) : Type := {
  of_int : Z -> num;
  of_decimal : Z -> nat -> num;
  n_add : num -> num -> num;
  n_sub : num -> num -> num;
  n_mul : num -> num -> num;
  n_div : num -> num -> num;
  n_exp : num -> num
}.

Declare Scope num_scope.
Delimit Scope num_scope with num.
Infix "+" := n_add : num_scope.
Infix "-" := n_sub : num_scope.
Infix "*" := n_mul : num_scope.
Infix "/" := n_div : num_scope.

(** ** The fragment of Python's object model the program uses *)

Module Py.

(** The only exception the two functions can raise by themselves: a
  subscript with a key the dictionary does not hold. *)
Inductive exn : Type :=
| KeyError (key : string).

Inductive result (A : Type) : Type :=
| Ok (a : A)
| Raise (e : exn).

Arguments Ok {A} a.
Arguments Raise {A} e.

Definition is_ok {A : Type} (r : result A) : bool :=
match r with Ok _ => true | Raise _ => false end.

Section Dict.
Variable num : Type.

(** A [dict] keeps its items in insertion order, which is the order a
    [for key in d] loop visits them. *)
Definition pydict : Type := list (string * num).

Definition dict_keys (d : pydict) : list string := map fst d.

Fixpoint dict_get (d : pydict) (k : string) : option num :=
  match d with
  | [] => None
  | (k', v) :: d' => if String.eqb k k' then Some v else dict_get d' k
  end.

(** [d[k] = v]: an existing key keeps its position, a new key is
    appended. *)
Fixpoint dict_set (d : pydict) (k : string) (v : num) : pydict :=
  match d with
  | [] => [(k, v)]
  | (k', v') :: d' =>
      if String.eqb k k' then (k', v) :: d' else (k', v') :: dict_set d' k v
  end.

(** References to dictionary objects, and the store that holds them.
    [next] is the first reference not yet allocated. *)
Definition ref : Type := nat.

Record heap : Type := mkheap {
  objs : ref -> pydict;
  next : ref
}.

Definition update (h : heap) (r : ref) (d : pydict) : heap :=
  {| objs := fun r' => if Nat.eqb r' r then d else objs h r';
     next := next h |}.

(** Computations that read and write the store and may raise. *)
Definition M (A : Type) : Type := heap -> result A * heap.

Definition ret {A : Type} (a : A) : M A := fun h => (Ok a, h).

Definition raise {A : Type} (e : exn) : M A := fun h => (Raise e, h).

Definition bind {A B : Type} (m : M A) (k : A -> M B) : M B :=
  fun h =>
    match m h with
    | (Ok a, h') => k a h'
    | (Raise e, h') => (Raise e, h')
    end.

(** [r[k]] *)
Definition getitem (r : ref) (k : string) : M num :=
  fun h =>
    match dict_get (objs h r) k with
    | Some v => (Ok v, h)
    | None => (Raise (KeyError k), h)
    end.

(** [r[k] = v] *)
Definition setitem (r : ref) (k : string) (v : num) : M unit :=
  fun h => (Ok tt, update h r (dict_set (objs h r) k v)).

(** [r.copy()]: a new object with the same items. *)
Definition copy (r : ref) : M ref :=
  fun h =>
    (Ok (next h),
     {| objs := fun r' => if Nat.eqb r' (next h) then objs h r else objs h r';
        next := S (next h) |}).

(** The keys a [for key in r] loop will visit. *)
Definition iter_keys (r : ref) : M (list string) :=
  fun h => (Ok (dict_keys (objs h r)), h).

End Dict.

Arguments ret {num A} a.
Arguments raise {num A} e.
Arguments bind {num A B} m k.
Arguments getitem {num} r k.
Arguments setitem {num} r k v.
Arguments copy {num} r.
Arguments iter_keys {num} r.

End Py.

Import Py.
Unset Implicit Arguments.

Notation "x <- m ;; k" := (bind m (fun x => k))
  (at level 61, m at next level, right associativity).
Notation "m ;;; k" := (bind m (fun _ => k))
  (at level 61, right associativity).

(** ** The program *)

Section Program.
Context {num : Type} {A : Arith num}.
Local Open Scope num_scope.

(** Lines 20-30.  The table is a module-level dictionary that no code
    assigns to, so it is a constant here and not an object of the store. *)
Definition log_odds_coefficients : pydict num :=
  [ ("Intercept", of_decimal 488 3);
    ("BpwMS", of_decimal 48613 4);
    ("Current Smoker", of_decimal 168601 4);
    ("BpwMS * Current Smoker", of_decimal (-185033) 4);
    ("Pack-Years", of_decimal 1531 4);
    ("BpwMS * Pack-Years", of_decimal (-496) 3);
    ("Age at Baseline", of_decimal 56 4);
    ("Sex (Male)", of_decimal (-22452) 4);
    ("Follow-up Interval", of_decimal 3507 4) ].

(** [log_odds_coefficients[k]] *)
Definition coefficient (k : string) : M num num :=
  match dict_get log_odds_coefficients k with
  | Some c => ret c
  | None => raise (KeyError k)
  end.

(** Lines 36-37, the loop body run over the keys still to visit:
    [log_odds += log_odds_coefficients[key] * inputs[key]].  The
    coefficient subscript is evaluated before the input subscript. *)
Fixpoint accumulate (keys : list string) (inputs : ref) (log_odds : num)
  : M num num :=
  match keys with
  | [] => ret log_odds
  | key :: keys' =>
      c <- coefficient key ;;
      v <- getitem inputs key ;;
      accumulate keys' inputs (log_odds + c * v)
  end.

(** Lines 34-37. *)
Definition log_odds_of (inputs : ref) : M num num :=
  log_odds <- coefficient "Intercept" ;;
  keys <- iter_keys inputs ;;
  accumulate keys inputs log_odds.

(** Lines 33-42. *)
Definition calculate_risk (inputs : ref) : M num num :=
  log_odds <- log_odds_of inputs ;;
  let odds := n_exp log_odds in
  let probability := odds / (of_int 1 + odds) in
  let risk_of_worsening := of_int 1 - probability in
  ret risk_of_worsening.

(** Lines 45-57. *)
Definition calculate_smoking_cessation_benefit (inputs : ref)
  : M num (num * num * num) :=
  current_risk <- calculate_risk inputs ;;
  inputs_no_smoking <- copy inputs ;;
  setitem inputs_no_smoking "Current Smoker" (of_int 0) ;;;
  setitem inputs_no_smoking "BpwMS * Current Smoker" (of_int 0) ;;;
  risk_no_smoking <- calculate_risk inputs_no_smoking ;;
  let relative_risk_reduction :=
    (current_risk - risk_no_smoking) / current_risk in
  ret (relative_risk_reduction * of_int 100,
       current_risk * of_int 100,
       risk_no_smoking * of_int 100).

(** Lines 68-81: the dictionary the page builds from the six widget
    values, interaction terms included. *)
Definition make_inputs (bpwms current_smoker pack_years age_at_baseline
                        sex_male follow_up_interval : num) : pydict num :=
  let bpwms_current_smoker := bpwms * current_smoker in
  let bpwms_pack_years := bpwms * pack_years in
  [ ("BpwMS", bpwms);
    ("Current Smoker", current_smoker);
    ("BpwMS * Current Smoker", bpwms_current_smoker);
    ("Pack-Years", pack_years);
    ("BpwMS * Pack-Years", bpwms_pack_years);
    ("Age at Baseline", age_at_baseline);
    ("Sex (Male)", sex_male);
    ("Follow-up Interval", follow_up_interval) ].

End Program.

(** ** The two arithmetics *)

(** Exact real arithmetic. *)
#[export] Instance R_arith : Arith R := {|
  of_int := IZR;
  of_decimal := fun m e => (IZR m / IZR (10 ^ Z.of_nat e))%R;
  n_add := Rplus;
  n_sub := Rminus;
  n_mul := Rmult;
  n_div := Rdiv;
  n_exp := exp
|}.

(** IEEE-754 binary64.  The four operations are the primitive ones, which
    never raise: like NumPy's float64 scalars under the default error
    state, a division by zero returns an infinity or NaN.  Both operands of
    the two divisions of the program descend from the result of [np.exp],
    so both are float64 divisions.  [np.exp] belongs to NumPy and not to
    this repository: it is a parameter. *)
Definition float_of_Z (z : Z) : float :=
  match z with
  | Z0 => PrimFloat.zero
  | Zpos _ => PrimFloat.of_uint63 (Uint63.of_Z z)
  | Zneg p => PrimFloat.opp (PrimFloat.of_uint63 (Uint63.of_Z (Zpos p)))
  end.

(** A decimal literal with at most 15 significant digits is the quotient
    of two integers that binary64 holds exactly, and IEEE division rounds
    that quotient to nearest, as the literal is read. *)
Definition float_of_decimal (m : Z) (e : nat) : float :=
  PrimFloat.div (float_of_Z m) (float_of_Z (10 ^ Z.of_nat e)).

Definition float_arith (np_exp : float -> float) : Arith float := {|
  of_int := float_of_Z;
  of_decimal := float_of_decimal;
  n_add := PrimFloat.add;
  n_sub := PrimFloat.sub;
  n_mul := PrimFloat.mul;
  n_div := PrimFloat.div;
  n_exp := np_exp
|}.

(** A computable stand-in for [np.exp], used only to run the model on
    concrete inputs: [(1 + x / 2^20) ^ (2^20)] by twenty squarings.  Every
    theorem about the float64 model holds for any [np_exp]. *)
Fixpoint square_times (n : nat) (y : float) : float :=
  match n with
  | O => y
  | S n' => square_times n' (PrimFloat.mul y y)
  end.

Definition exp_by_squaring (x : float) : float :=
  square_times 20 (PrimFloat.add 1 (PrimFloat.div x 1048576)).

(** ** What the specification names *)

Section Specification.
Context {num : Type} {A : Arith num}.
Local Open Scope num_scope.

(** The eight covariates of a CovariateSet, under the keys the program
    uses for them. *)
Definition covariate_names : list string :=
  [ "BpwMS"; "Current Smoker"; "BpwMS * Current Smoker"; "Pack-Years";
    "BpwMS * Pack-Years"; "Age at Baseline"; "Sex (Male)";
    "Follow-up Interval" ].

(** The CoefficientTable as the specification lists its values, to be
    compared with the subscripts of [log_odds_coefficients]. *)
Definition CoefficientTable (name : string) : num :=
  if String.eqb name "Intercept" then of_decimal 488 3
  else if String.eqb name "BpwMS" then of_decimal 48613 4
  else if String.eqb name "Current Smoker" then of_decimal 168601 4
  else if String.eqb name "BpwMS * Current Smoker"
    then of_decimal (-185033) 4
  else if String.eqb name "Pack-Years" then of_decimal 1531 4
  else if String.eqb name "BpwMS * Pack-Years" then of_decimal (-496) 3
  else if String.eqb name "Age at Baseline" then of_decimal 56 4
  else if String.eqb name "Sex (Male)" then of_decimal (-22452) 4
  else if String.eqb name "Follow-up Interval" then of_decimal 3507 4
  else of_int 0.

(** Step 2 of computeRisk: the sum over every (name, value) pair, in the
    order of the pairs. *)
Definition weighted_sum (covariates : pydict num) : num :=
  fold_left (fun log_odds nv => log_odds + CoefficientTable (fst nv) * snd nv)
            covariates (CoefficientTable "Intercept").

(** Steps 3 to 5. *)
Definition logistic_risk (log_odds : num) : num :=
  of_int 1 - n_exp log_odds / (of_int 1 + n_exp log_odds).

(** The counterfactual CovariateSet of computeBenefit, step 2. *)
Definition counterfactual (covariates : pydict num) : pydict num :=
  dict_set (dict_set covariates "Current Smoker" (of_int 0))
           "BpwMS * Current Smoker" (of_int 0).

(** The output triple of computeBenefit from the two risks. *)
Definition benefit_triple (current_risk risk_no_smoking : num)
  : num * num * num :=
  ((current_risk - risk_no_smoking) / current_risk * of_int 100,
   current_risk * of_int 100,
   risk_no_smoking * of_int 100).

(** The covariate set with its pack-years replaced by [p] and the
    interaction term recomputed as line 69 does, [bpwms * pack_years]. *)
Definition with_pack_years (covariates : pydict num) (bpwms p : num)
  : pydict num :=
  dict_set (dict_set covariates "Pack-Years" p)
           "BpwMS * Pack-Years" (bpwms * p).

(** A store whose only object is [d], at reference 0. *)
Definition store_of (d : pydict num) : heap num :=
  {| objs := fun _ => d; next := 1 |}.

End Specification.

(** ** What the two functions denote

    Neither function writes to an object that existed before the call, so
    each is determined by the items of the dictionary it is given.  These
    pure functions are proved below to be what the stateful code
    computes. *)

Section Denotation.
Context {num : Type} {A : Arith num}.
Local Open Scope num_scope.

Fixpoint terms (keys : list string) (d : pydict num) (log_odds : num)
  : result num :=
  match keys with
  | [] => Ok log_odds
  | key :: keys' =>
      match dict_get log_odds_coefficients key, dict_get d key with
      | Some c, Some v => terms keys' d (log_odds + c * v)
      | _, _ => Raise (KeyError key)
      end
  end.

Definition log_odds_value (d : pydict num) : result num :=
  match dict_get log_odds_coefficients "Intercept" with
  | Some c => terms (dict_keys d) d c
  | None => Raise (KeyError "Intercept")
  end.

Definition risk_value (d : pydict num) : result num :=
  match log_odds_value d with
  | Ok log_odds => Ok (logistic_risk log_odds)
  | Raise e => Raise e
  end.

(** [d[k]], read as 0 where the key is missing. *)
Definition item_or_zero (d : pydict num) (k : string) : num :=
  match dict_get d k with
  | Some v => v
  | None => of_int 0
  end.

(** The store after the copy and the two assignments of lines 50-52. *)
Definition store_after (h : heap num) (r : ref) : heap num :=
  let h1 := snd (copy r h) in
  let h2 := snd (setitem (next h) "Current Smoker" (of_int 0) h1) in
  snd (setitem (next h) "BpwMS * Current Smoker" (of_int 0) h2).

End Denotation.

(** ** Concrete inputs *)

(** The sidebar defaults: BpwMS and current smoker, 2.5 pack-years, age 30,
    female, follow-up interval 1.0. *)
Definition default_inputs_R : pydict R :=
  make_inputs 1%R 1%R 2.5%R 30%R 0%R 1%R.

Definition default_inputs : pydict float :=
  make_inputs (A := float_arith exp_by_squaring)
    1%float 1%float 2.5%float 30%float 0%float 1%float.

(** The same subject followed for 200, and for 2100, years. *)
Definition long_follow_up : pydict float :=
  make_inputs (A := float_arith exp_by_squaring)
    1%float 1%float 2.5%float 30%float 0%float 200%float.

Definition longest_follow_up : pydict float :=
  make_inputs (A := float_arith exp_by_squaring)
    1%float 1%float 2.5%float 30%float 0%float 2100%float.

(** The defaults without the key ["Sex (Male)"]. *)
Definition inputs_without_sex : pydict R :=
  [ ("BpwMS", 1%R); ("Current Smoker", 1%R);
    ("BpwMS * Current Smoker", 1%R); ("Pack-Years", 2.5%R);
    ("BpwMS * Pack-Years", 2.5%R); ("Age at Baseline", 30%R);
    ("Follow-up Interval", 1%R) ].

(** A smoker outside the population the page is written for, and a
    non-smoker inside it. *)
Definition non_bpwms_smoker_R : pydict R :=
  make_inputs 0%R 1%R 2.5%R 30%R 0%R 1%R.

Definition non_smoker_R : pydict R :=
  make_inputs 1%R 0%R 2.5%R 30%R 0%R 1%R.

(** ** The page

    The script below the two functions (lines 59-105) reads six widgets,
    builds the dictionary, and either warns or, once the button is pressed,
    calls [calculate_smoking_cessation_benefit] and shows three numbers and
    a pie chart.  The widgets are the arguments here and what is shown is
    the result; the text formatting of the numbers is left out. *)

Section Page.
Context {num : Type} {A : Arith num}.
Local Open Scope num_scope.

(** What one run of the script puts below the title: the warning of line
    85, nothing while the button is not pressed, the three numbers of lines
    92-94 with the sizes of the two pie slices of line 99, or the exception
    a call let through. *)
Inductive rendered : Type :=
| Warning
| Nothing
| Results (current_risk risk_no_smoking relative_risk_reduction : num)
          (sizes : list num)
| Uncaught (e : exn).

(** Lines 68-81 with the types the widgets return: the two select boxes of
    lines 60-61 and 64 and the age of line 63 yield ints, the pack-years
    and the follow-up interval floats.  [bpwms * current_smoker] is a
    product of ints, [bpwms * pack_years] of an int and a float. *)
Definition widget_inputs (bpwms current_smoker : Z) (pack_years : num)
                         (age_at_baseline sex_male : Z)
                         (follow_up_interval : num) : pydict num :=
  let bpwms_current_smoker := (bpwms * current_smoker)%Z in
  let bpwms_pack_years := of_int bpwms * pack_years in
  [ ("BpwMS", of_int bpwms);
    ("Current Smoker", of_int current_smoker);
    ("BpwMS * Current Smoker", of_int bpwms_current_smoker);
    ("Pack-Years", pack_years);
    ("BpwMS * Pack-Years", bpwms_pack_years);
    ("Age at Baseline", of_int age_at_baseline);
    ("Sex (Male)", of_int sex_male);
    ("Follow-up Interval", follow_up_interval) ].

(** Lines 83-105.  [button] is what [st.sidebar.button] returned. *)
Definition page (bpwms current_smoker : Z) (pack_years : num)
                (age_at_baseline sex_male : Z) (follow_up_interval : num)
                (button : bool) : rendered :=
  let inputs := widget_inputs bpwms current_smoker pack_years
                              age_at_baseline sex_male follow_up_interval in
  if (bpwms =? 0)%Z || (current_smoker =? 0)%Z then Warning
  else if button then
    match fst (calculate_smoking_cessation_benefit 0 (store_of inputs)) with
    | Ok (relative_risk_reduction, current_risk, risk_no_smoking) =>
        let sizes := [ of_int 100 - relative_risk_reduction;
                       relative_risk_reduction ] in
        Results current_risk risk_no_smoking relative_risk_reduction sizes
    | Raise e => Uncaught e
    end
  else Nothing.

End Page.

Arguments Warning {num}.
Arguments Nothing {num}.
Arguments Uncaught {num} e.

(** Further concrete inputs. *)

(** A dictionary with two keys the table does not have. *)
Definition inputs_with_unknown_keys : pydict R :=
  [ ("BpwMS", 1%R); ("Weight", 70%R); ("Pack-Years", 2.5%R);
    ("Height", 170%R) ].

(** The defaults with 3000 pack-years. *)
Definition heaviest_smoker : pydict float :=
  make_inputs (A := float_arith exp_by_squaring)
    1%float 1%float 3000%float 30%float 0%float 1%float.

(** ** Dictionaries *)

Section DictFacts.
Context {num : Type}.
Implicit Types (d : pydict num) (k : string) (v : num).

Lemma dict_get_None d k :
  dict_get d k = None <-> ~ In k (dict_keys d).
Proof.
  induction d as [|[k' v'] d IH]; simpl.
  - tauto.
  - destruct (String.eqb_spec k k') as [->|Hne].
    + split; [discriminate | intros H; exfalso; apply H; now left].
    + rewrite IH. split.
      * intros H [E|E]; [now apply Hne | now apply H].
      * intros H E. apply H. now right.
Qed.

Lemma dict_get_In d k :
  In k (dict_keys d) -> exists v, dict_get d k = Some v.
Proof.
  intros H. destruct (dict_get d k) as [v|] eqn:E.
  - now exists v.
  - apply dict_get_None in E. contradiction.
Qed.

Lemma dict_get_pair d k v :
  NoDup (dict_keys d) -> In (k, v) d -> dict_get d k = Some v.
Proof.
  induction d as [|[k' v'] d IH]; simpl; intros Hnd Hin.
  - contradiction.
  - inversion Hnd as [|? ? Hnotin Hnd']; subst.
    destruct Hin as [E|Hin].
    + inversion E; subst. now rewrite String.eqb_refl.
    + destruct (String.eqb_spec k k') as [->|_].
      * exfalso. apply Hnotin. change k' with (fst (k', v)).
        now apply in_map.
      * now apply IH.
Qed.

Lemma dict_get_set_same d k v :
  dict_get (dict_set d k v) k = Some v.
Proof.
  induction d as [|[k' v'] d IH]; simpl.
  - now rewrite String.eqb_refl.
  - destruct (String.eqb k k') eqn:E; simpl; rewrite E; auto.
Qed.

Lemma dict_get_set_other d k k' v :
  k' <> k -> dict_get (dict_set d k v) k' = dict_get d k'.
Proof.
  intros Hne. induction d as [|[k0 v0] d IH]; simpl.
  - destruct (String.eqb_spec k' k); [contradiction | reflexivity].
  - destruct (String.eqb_spec k k0) as [->|Hk]; simpl.
    + destruct (String.eqb_spec k' k0); [contradiction | reflexivity].
    + now rewrite IH.
Qed.

(** Assigning to a key the value it already has leaves the items as they
    are. *)
Lemma dict_set_same_value d k v :
  dict_get d k = Some v -> dict_set d k v = d.
Proof.
  induction d as [|[k' v'] d IH]; simpl.
  - discriminate.
  - destruct (String.eqb_spec k k') as [->|_].
    + now intros [= ->].
    + intros H. now rewrite IH.
Qed.

(** Assigning to a key the dictionary holds keeps the keys and their
    order. *)
Lemma dict_keys_set_present d k v :
  In k (dict_keys d) -> dict_keys (dict_set d k v) = dict_keys d.
Proof.
  induction d as [|[k' v'] d IH]; simpl.
  - contradiction.
  - destruct (String.eqb_spec k k') as [->|Hne]; simpl.
    + reflexivity.
    + intros [E|H]; [now subst | now rewrite IH].
Qed.

(** In general the keys are kept and a missing key comes last. *)
Lemma dict_keys_set d k v k' :
  In k' (dict_keys (dict_set d k v)) <-> k' = k \/ In k' (dict_keys d).
Proof.
  induction d as [|[k0 v0] d IH]; simpl.
  - intuition.
  - destruct (String.eqb_spec k k0) as [->|Hne]; simpl.
    + intuition.
    + rewrite IH. intuition.
Qed.

End DictFacts.

(** ** The stateful code and its denotation *)

Section Run.
Context {num : Type} {A : Arith num}.
Local Open Scope num_scope.
Implicit Types (d : pydict num) (h : heap num) (r : ref).

Lemma accumulate_run keys r log_odds h :
  accumulate keys r log_odds h = (terms keys (objs h r) log_odds, h).
Proof.
  revert log_odds. induction keys as [|key keys IH]; intros log_odds.
  - reflexivity.
  - cbn [accumulate terms]. unfold bind at 1. unfold coefficient.
    destruct (dict_get log_odds_coefficients key) as [c|]; [|reflexivity].
    unfold ret, bind at 1. unfold getitem.
    destruct (dict_get (objs h r) key) as [v|]; [|reflexivity].
    apply IH.
Qed.

Lemma log_odds_of_run r h :
  log_odds_of r h = (log_odds_value (objs h r), h).
Proof.
  unfold log_odds_of, log_odds_value, bind, coefficient, iter_keys.
  destruct (dict_get log_odds_coefficients "Intercept"); [|reflexivity].
  apply accumulate_run.
Qed.

Lemma calculate_risk_run r h :
  calculate_risk r h = (risk_value (objs h r), h).
Proof.
  unfold calculate_risk, bind. rewrite log_odds_of_run.
  unfold risk_value. now destruct (log_odds_value (objs h r)).
Qed.

Lemma objs_store_after h r r' :
  objs (store_after h r) r' =
  if Nat.eqb r' (next h) then counterfactual (objs h r) else objs h r'.
Proof.
  unfold store_after, setitem, copy, update, counterfactual.
  cbn [snd objs next]. rewrite !Nat.eqb_refl.
  destruct (Nat.eqb r' (next h)); reflexivity.
Qed.

Lemma benefit_run r h :
  calculate_smoking_cessation_benefit r h =
  match risk_value (objs h r) with
  | Raise e => (Raise e, h)
  | Ok current_risk =>
      match risk_value (counterfactual (objs h r)) with
      | Raise e => (Raise e, store_after h r)
      | Ok risk_no_smoking =>
          (Ok (benefit_triple current_risk risk_no_smoking),
           store_after h r)
      end
  end.
Proof.
  unfold calculate_smoking_cessation_benefit.
  unfold bind at 1. rewrite calculate_risk_run.
  destruct (risk_value (objs h r)) as [current_risk|e]; [|reflexivity].
  unfold bind at 1. unfold copy.
  unfold bind at 1. unfold setitem at 1.
  unfold bind at 1. unfold setitem at 1.
  unfold bind. rewrite calculate_risk_run.
  change (update (update _ _ _) _ _) with (store_after h r).
  rewrite objs_store_after, Nat.eqb_refl.
  now destruct (risk_value (counterfactual (objs h r))).
Qed.

End Run.

(** ** The value [calculate_risk] returns *)

Section Formula.
Context {num : Type} {A : Arith num}.
Local Open Scope num_scope.
Implicit Types (d : pydict num) (h : heap num) (r : ref).

Lemma table_keys :
  dict_keys (log_odds_coefficients (num := num))
  = "Intercept" :: covariate_names.
Proof. reflexivity. Qed.

Lemma NoDup_covariate_names : NoDup covariate_names.
Proof.
  unfold covariate_names.
  repeat (constructor; [simpl; intuition discriminate|]).
  constructor.
Qed.

Lemma covariate_in_table k :
  In k covariate_names -> In k (dict_keys (log_odds_coefficients (num := num))).
Proof. rewrite table_keys. now right. Qed.

(** Subscripting the table yields the value the specification lists. *)
Lemma coefficient_known k :
  In k (dict_keys (log_odds_coefficients (num := num))) ->
  dict_get log_odds_coefficients k = Some (CoefficientTable k).
Proof.
  rewrite table_keys. unfold covariate_names. simpl.
  intros H.
  repeat (destruct H as [<-|H]; [reflexivity|]).
  contradiction.
Qed.

Lemma terms_ok keys d log_odds :
  (forall k, In k keys ->
     In k (dict_keys (log_odds_coefficients (num := num)))
     /\ In k (dict_keys d)) ->
  terms keys d log_odds
  = Ok (fold_left (fun acc k => acc + CoefficientTable k * item_or_zero d k)
                  keys log_odds).
Proof.
  revert log_odds.
  induction keys as [|key keys IH]; intros log_odds Hall.
  - reflexivity.
  - cbn [terms fold_left].
    destruct (Hall key (or_introl eq_refl)) as [Ht Hd].
    rewrite (coefficient_known _ Ht).
    destruct (dict_get_In _ _ Hd) as [v Ev]. rewrite Ev.
    replace (item_or_zero d key) with v
      by (unfold item_or_zero; now rewrite Ev).
    apply IH. intros k Hk. apply Hall. now right.
Qed.

Lemma terms_is_ok keys d log_odds :
  is_ok (terms keys d log_odds) = true <->
  (forall k, In k keys ->
     In k (dict_keys (log_odds_coefficients (num := num)))
     /\ In k (dict_keys d)).
Proof.
  split.
  - revert log_odds.
    induction keys as [|key keys IH]; intros log_odds Hok k Hk.
    + contradiction.
    + cbn [terms] in Hok.
      destruct (dict_get log_odds_coefficients key) as [c|] eqn:Ec;
        [|discriminate].
      destruct (dict_get d key) as [v|] eqn:Ev; [|discriminate].
      destruct Hk as [<-|Hk].
      * split.
        -- destruct (in_dec string_dec key
                       (dict_keys (log_odds_coefficients (num := num))))
             as [Hin|Hout]; [exact Hin|].
           apply dict_get_None in Hout. congruence.
        -- destruct (in_dec string_dec key (dict_keys d)) as [Hin|Hout];
             [exact Hin|].
           apply dict_get_None in Hout. congruence.
      * eapply IH; eassumption.
  - intros Hall. now rewrite terms_ok.
Qed.

(** With distinct keys, visiting the keys and subscripting is visiting
    the pairs. *)
Lemma fold_keys_pairs d0 d log_odds :
  (forall k v, In (k, v) d -> dict_get d0 k = Some v) ->
  fold_left (fun acc k => acc + CoefficientTable k * item_or_zero d0 k)
            (dict_keys d) log_odds
  = fold_left (fun acc nv => acc + CoefficientTable (fst nv) * snd nv)
              d log_odds.
Proof.
  revert log_odds.
  induction d as [|[k v] d IH]; intros log_odds Hget.
  - reflexivity.
  - cbn [dict_keys map fold_left fst snd].
    replace (item_or_zero d0 k) with v
      by (unfold item_or_zero; now rewrite (Hget k v (or_introl eq_refl))).
    apply IH. intros k' v' Hin. apply Hget. now right.
Qed.

(** A dictionary with keys of the table only, whichever they are: the
    call returns, and returns the logistic risk of the weighted sum of
    the pairs it holds. *)
Lemma risk_value_formula d :
  NoDup (dict_keys d) ->
  (forall k, In k (dict_keys d) ->
     In k (dict_keys (log_odds_coefficients (num := num)))) ->
  risk_value d = Ok (logistic_risk (weighted_sum d)).
Proof.
  intros Hnd Hsub.
  unfold risk_value, log_odds_value.
  rewrite (coefficient_known "Intercept") by (rewrite table_keys; now left).
  rewrite terms_ok by (intros k Hk; split; [now apply Hsub | exact Hk]).
  rewrite fold_keys_pairs
    by (intros k v Hin; now apply dict_get_pair).
  reflexivity.
Qed.

Lemma risk_value_is_ok d :
  is_ok (risk_value d) = true <->
  (forall k, In k (dict_keys d) ->
     In k (dict_keys (log_odds_coefficients (num := num)))).
Proof.
  unfold risk_value, log_odds_value.
  rewrite (coefficient_known "Intercept") by (rewrite table_keys; now left).
  destruct (terms (dict_keys d) d (CoefficientTable "Intercept"))
    as [v|e] eqn:E; cbn [is_ok].
  - assert (Hok : is_ok (terms (dict_keys d) d (CoefficientTable "Intercept"))
                  = true) by now rewrite E.
    pose proof (proj1 (terms_is_ok _ _ _) Hok) as Hall.
    split; [|reflexivity].
    intros _ k Hk. now apply Hall.
  - split; [discriminate|].
    intros Hsub.
    assert (Hok : is_ok (terms (dict_keys d) d (CoefficientTable "Intercept"))
                  = true)
      by (apply terms_is_ok; intros k Hk; split; [now apply Hsub | exact Hk]).
    rewrite E in Hok. discriminate.
Qed.

(** A covariate set: the eight covariates, each once, in any order. *)
Lemma covariate_set_keys d :
  Permutation (dict_keys d) covariate_names ->
  NoDup (dict_keys d)
  /\ (forall k, In k (dict_keys d) <-> In k covariate_names).
Proof.
  intros HP. split.
  - apply (Permutation_NoDup (Permutation_sym HP)), NoDup_covariate_names.
  - intros k. split; apply Permutation_in;
      [exact HP | exact (Permutation_sym HP)].
Qed.

Lemma covariate_set_risk d :
  Permutation (dict_keys d) covariate_names ->
  risk_value d = Ok (logistic_risk (weighted_sum d)).
Proof.
  intros HP. destruct (covariate_set_keys d HP) as [Hnd Hin].
  apply risk_value_formula; [exact Hnd|].
  intros k Hk. now apply covariate_in_table, Hin.
Qed.

(** The counterfactual of a covariate set is a covariate set with the
    same keys in the same order. *)
Lemma counterfactual_keys d :
  In "Current Smoker" (dict_keys d) ->
  In "BpwMS * Current Smoker" (dict_keys d) ->
  dict_keys (counterfactual d) = dict_keys d.
Proof.
  intros H1 H2. unfold counterfactual.
  rewrite dict_keys_set_present.
  - now apply dict_keys_set_present.
  - now rewrite dict_keys_set_present.
Qed.

Lemma counterfactual_covariate_set d :
  Permutation (dict_keys d) covariate_names ->
  dict_keys (counterfactual d) = dict_keys d.
Proof.
  intros HP. destruct (covariate_set_keys d HP) as [_ Hin].
  apply counterfactual_keys; apply Hin; simpl; tauto.
Qed.

(** If both smoking terms are 0 already, lines 51-52 change nothing. *)
Lemma counterfactual_of_non_smoker d :
  dict_get d "Current Smoker" = Some (of_int 0) ->
  dict_get d "BpwMS * Current Smoker" = Some (of_int 0) ->
  counterfactual d = d.
Proof.
  intros Hcs Hbcs. unfold counterfactual.
  rewrite (dict_set_same_value d _ _ Hcs).
  now apply dict_set_same_value.
Qed.

End Formula.

(** ** Claims that hold in every arithmetic *)

Section Claims.
Context {num : Type} {A : Arith num}.
Local Open Scope num_scope.
Implicit Types (d : pydict num) (h : heap num) (r : ref).

(** C1: for a covariate set holding exactly the eight named covariates,
    [calculate_risk] returns [1 - odds / (1 + odds)], where [odds] is
    [e^log_odds] and [log_odds] is [CoefficientTable["Intercept"]] plus
    the sum, over every (name, value) pair, of
    [CoefficientTable[name] * value], with the coefficient values the
    specification fixes.  The store is left as it was. *)
Theorem C1_calculate_risk_formula h r :
  Permutation (dict_keys (objs h r)) covariate_names ->
  let log_odds :=
    fold_left (fun acc nv => acc + CoefficientTable (fst nv) * snd nv)
              (objs h r) (CoefficientTable "Intercept") in
  let odds := n_exp log_odds in
  calculate_risk r h = (Ok (of_int 1 - odds / (of_int 1 + odds)), h).
Proof.
  intros HP. cbv zeta.
  rewrite calculate_risk_run, (covariate_set_risk _ HP).
  reflexivity.
Qed.

(** C2: for a covariate set, [calculate_smoking_cessation_benefit]
    returns the triple (relative risk reduction * 100, current risk * 100,
    risk without smoking * 100), where the current risk is what
    [calculate_risk] returns on the covariate set, the risk without
    smoking is what it returns on the covariate set with
    ["Current Smoker"] and ["BpwMS * Current Smoker"] set to 0, and the
    relative risk reduction is their difference over the current risk. *)
Theorem C2_benefit_triple h r :
  Permutation (dict_keys (objs h r)) covariate_names ->
  exists current_risk risk_no_smoking,
    fst (calculate_risk r h) = Ok current_risk
    /\ (forall h' r',
          objs h' r' = counterfactual (objs h r) ->
          fst (calculate_risk r' h') = Ok risk_no_smoking)
    /\ fst (calculate_smoking_cessation_benefit r h)
       = Ok ((current_risk - risk_no_smoking) / current_risk * of_int 100,
             current_risk * of_int 100,
             risk_no_smoking * of_int 100).
Proof.
  intros HP.
  assert (HP' : Permutation (dict_keys (counterfactual (objs h r)))
                            covariate_names)
    by now rewrite counterfactual_covariate_set.
  exists (logistic_risk (weighted_sum (objs h r))),
         (logistic_risk (weighted_sum (counterfactual (objs h r)))).
  repeat split.
  - now rewrite calculate_risk_run, (covariate_set_risk _ HP).
  - intros h' r' E.
    now rewrite calculate_risk_run, E, (covariate_set_risk _ HP').
  - now rewrite benefit_run, (covariate_set_risk _ HP),
      (covariate_set_risk _ HP').
Qed.

(** C4, as the code has it: [calculate_risk] does not ask for the eight
    covariates.  It raises exactly when the dictionary holds a key that
    [log_odds_coefficients] lacks; a dictionary whose keys are keys of the
    table, whichever covariates it leaves out, makes it return the
    logistic risk of the intercept plus the terms of the pairs it
    holds. *)
Theorem C4_absent_covariate_is_no_error h r :
  (is_ok (fst (calculate_risk r h)) = true <->
   forall k, In k (dict_keys (objs h r)) ->
             In k ("Intercept" :: covariate_names))
  /\ (NoDup (dict_keys (objs h r)) ->
      (forall k, In k (dict_keys (objs h r)) ->
                 In k ("Intercept" :: covariate_names)) ->
      calculate_risk r h
      = (Ok (logistic_risk (weighted_sum (objs h r))), h)).
Proof.
  rewrite calculate_risk_run. cbn [fst]. split.
  - rewrite risk_value_is_ok, table_keys. reflexivity.
  - intros Hnd Hsub. rewrite risk_value_formula; [reflexivity|exact Hnd|].
    now rewrite table_keys.
Qed.

(** Whatever the dictionary, the call leaves every object that existed
    before it as it was. *)
Lemma benefit_preserves_store h r r0 :
  (r0 < next h)%nat ->
  objs (snd (calculate_smoking_cessation_benefit r h)) r0 = objs h r0.
Proof.
  intros Hlt. rewrite benefit_run.
  assert (Hne : Nat.eqb r0 (next h) = false) by (apply Nat.eqb_neq; lia).
  destruct (risk_value (objs h r)); [|reflexivity].
  destruct (risk_value (counterfactual (objs h r))); cbn [snd];
    now rewrite objs_store_after, Hne.
Qed.

(** C5: the dictionary built at lines 50-52 for a covariate set has the
    keys of the input in the same order, maps ["Current Smoker"] and
    ["BpwMS * Current Smoker"] to 0 and every other key, the pack-years
    terms among them, to the value the input maps it to; the call changes
    neither the caller's dictionary nor any other object that existed
    before it. *)
Theorem C5_counterfactual_frame h r :
  (r < next h)%nat ->
  Permutation (dict_keys (objs h r)) covariate_names ->
  let h' := snd (calculate_smoking_cessation_benefit r h) in
  let inputs_no_smoking := objs h' (next h) in
  objs h' r = objs h r
  /\ (forall r0, (r0 < next h)%nat -> objs h' r0 = objs h r0)
  /\ dict_get inputs_no_smoking "Current Smoker" = Some (of_int 0)
  /\ dict_get inputs_no_smoking "BpwMS * Current Smoker" = Some (of_int 0)
  /\ (forall k, k <> "Current Smoker" -> k <> "BpwMS * Current Smoker" ->
                dict_get inputs_no_smoking k = dict_get (objs h r) k)
  /\ dict_keys inputs_no_smoking = dict_keys (objs h r).
Proof.
  intros Hr HP. cbv zeta.
  split; [now apply benefit_preserves_store|].
  split; [intros r0 Hr0; now apply benefit_preserves_store|].
  assert (HP' : Permutation (dict_keys (counterfactual (objs h r)))
                            covariate_names)
    by now rewrite counterfactual_covariate_set.
  rewrite benefit_run, (covariate_set_risk _ HP), (covariate_set_risk _ HP').
  cbn [snd]. rewrite objs_store_after, Nat.eqb_refl.
  unfold counterfactual at 1 2 3.
  repeat split.
  - rewrite dict_get_set_other by discriminate. apply dict_get_set_same.
  - apply dict_get_set_same.
  - intros k H1 H2. now rewrite !dict_get_set_other.
  - now apply counterfactual_covariate_set.
Qed.

End Claims.

(** ** Exact real arithmetic *)

Section RealModel.
Local Open Scope R_scope.
Implicit Types (d : pydict R) (h : heap R) (r : ref) (L : R).

(** The coefficients, as real numbers. *)
Lemma coefficient_values_R :
  CoefficientTable "Intercept" = 0.488
  /\ CoefficientTable "BpwMS" = 4.8613
  /\ CoefficientTable "Current Smoker" = 16.8601
  /\ CoefficientTable "BpwMS * Current Smoker" = -18.5033
  /\ CoefficientTable "Pack-Years" = 0.1531
  /\ CoefficientTable "BpwMS * Pack-Years" = -0.496
  /\ CoefficientTable "Age at Baseline" = 0.0056
  /\ CoefficientTable "Sex (Male)" = -2.2452
  /\ CoefficientTable "Follow-up Interval" = 0.3507.
Proof. unfold CoefficientTable. cbn. repeat split; lra. Qed.

Lemma logistic_risk_inv L : logistic_risk L = / (1 + exp L).
Proof.
  unfold logistic_risk. cbn. pose proof (exp_pos L). field. lra.
Qed.

(** The risk is a probability, and never 0 or 1. *)
Lemma logistic_risk_bounds L : 0 < logistic_risk L < 1.
Proof.
  rewrite logistic_risk_inv. pose proof (exp_pos L) as He.
  split.
  - apply Rinv_0_lt_compat. lra.
  - rewrite <- Rinv_1 at 2. apply Rinv_lt_contravar; lra.
Qed.

(** The higher the log-odds of stability, the lower the risk. *)
Lemma logistic_risk_antitone L L' :
  L <= L' -> logistic_risk L' <= logistic_risk L.
Proof.
  intros HL. rewrite !logistic_risk_inv.
  pose proof (exp_pos L) as He.
  apply Rinv_le_contravar; [lra|].
  destruct HL as [Hlt| ->]; [|lra].
  apply exp_increasing in Hlt. lra.
Qed.

Lemma logistic_risk_strict L L' :
  L < L' -> logistic_risk L' < logistic_risk L.
Proof.
  intros HL. rewrite !logistic_risk_inv.
  pose proof (exp_pos L) as He. pose proof (exp_pos L') as He'.
  apply exp_increasing in HL.
  apply Rinv_lt_contravar; [|lra].
  apply Rmult_lt_0_compat; lra.
Qed.

Lemma fold_terms_shift d (a x : R) :
  fold_left (fun acc nv => n_add acc (n_mul (CoefficientTable (fst nv)) (snd nv)))
            d (a + x)
  = fold_left (fun acc nv => n_add acc (n_mul (CoefficientTable (fst nv)) (snd nv)))
              d a + x.
Proof.
  revert a. induction d as [|[k v] d IH]; intros a; cbn [fold_left fst snd].
  - reflexivity.
  - rewrite <- IH. f_equal. cbn. lra.
Qed.

(** Assigning [v] to a key that held [old] moves the weighted sum by the
    key's coefficient times [v - old]. *)
Lemma weighted_sum_set d k (v old : R) :
  dict_get d k = Some old ->
  weighted_sum (dict_set d k v)
  = weighted_sum d + CoefficientTable k * (v - old).
Proof.
  unfold weighted_sum. generalize (CoefficientTable (A := R_arith) "Intercept").
  induction d as [|[k' v'] d IH]; intros a; cbn [dict_get dict_set].
  - discriminate.
  - destruct (String.eqb_spec k k') as [->|_].
    + intros [= ->]. cbn [fold_left fst snd].
      rewrite <- fold_terms_shift. f_equal. cbn. lra.
    + intros Hget. cbn [fold_left fst snd]. now apply IH.
Qed.

(** Lines 51-52 move the log-odds by minus the two smoking terms. *)
Lemma weighted_sum_counterfactual d (cs bcs : R) :
  dict_get d "Current Smoker" = Some cs ->
  dict_get d "BpwMS * Current Smoker" = Some bcs ->
  weighted_sum (counterfactual d)
  = weighted_sum d - 16.8601 * cs + 18.5033 * bcs.
Proof.
  intros Hcs Hbcs. unfold counterfactual.
  rewrite (weighted_sum_set _ _ _ bcs)
    by (rewrite dict_get_set_other by discriminate; exact Hbcs).
  rewrite (weighted_sum_set _ _ _ cs) by exact Hcs.
  destruct coefficient_values_R as (_ & _ & -> & -> & _).
  cbn. lra.
Qed.

Lemma weighted_sum_with_pack_years d (b p py bpy : R) :
  dict_get d "Pack-Years" = Some py ->
  dict_get d "BpwMS * Pack-Years" = Some bpy ->
  weighted_sum (with_pack_years d b p)
  = weighted_sum d + 0.1531 * (p - py) - 0.496 * (b * p - bpy).
Proof.
  intros Hpy Hbpy. unfold with_pack_years.
  rewrite (weighted_sum_set _ _ _ bpy)
    by (rewrite dict_get_set_other by discriminate; exact Hbpy).
  rewrite (weighted_sum_set _ _ _ py) by exact Hpy.
  destruct coefficient_values_R as (_ & _ & _ & _ & -> & -> & _).
  cbn. lra.
Qed.

Lemma with_pack_years_keys d (b p : R) :
  Permutation (dict_keys d) covariate_names ->
  dict_keys (with_pack_years d b p) = dict_keys d.
Proof.
  intros HP. destruct (covariate_set_keys d HP) as [_ Hin].
  unfold with_pack_years.
  rewrite dict_keys_set_present; rewrite ?dict_keys_set_present;
    try reflexivity; apply Hin; simpl; tauto.
Qed.

End RealModel.

Section RealClaims.
Local Open Scope R_scope.
Implicit Types (d : pydict R) (h : heap R) (r : ref).





(** The remark that closes C10: where the interaction term is 0 (BpwMS =
    0), the same two assignments lower the log-odds by 16.8601 and the
    risk without smoking exceeds the current risk. *)
Lemma cessation_raises_risk_without_interaction d :
  dict_get d "Current Smoker" = Some 1 ->
  dict_get d "BpwMS * Current Smoker" = Some 0 ->
  logistic_risk (weighted_sum d)
  < logistic_risk (weighted_sum (counterfactual d)).
Proof.
  intros Hcs Hbcs. apply logistic_risk_strict.
  rewrite (weighted_sum_counterfactual _ 1 0 Hcs Hbcs). lra.
Qed.

End RealClaims.

(** ** IEEE-754 binary64 *)

Section FloatModel.
Local Open Scope float_scope.

(** [float_of_decimal] reads the nine literals of the table as Rocq reads
    a float literal, to nearest. *)
Lemma coefficient_values_float (np_exp : float -> float) :
  log_odds_coefficients (A := float_arith np_exp)
  = [ ("Intercept", 0.488); ("BpwMS", 4.8613);
      ("Current Smoker", 16.8601);
      ("BpwMS * Current Smoker", -18.5033);
      ("Pack-Years", 0.1531); ("BpwMS * Pack-Years", -0.496);
      ("Age at Baseline", 0.0056); ("Sex (Male)", -2.2452);
      ("Follow-up Interval", 0.3507) ]%list.
Proof. reflexivity. Qed.

(** A float64 division by zero yields NaN or an infinity. *)
Lemma float_div_zero (x : float) :
  x / 0 = nan \/ x / 0 = infinity \/ x / 0 = neg_infinity.
Proof.
  pose proof (FloatAxioms.div_spec x 0) as Hdiv.
  change (Prim2SF 0) with (S754_zero false) in Hdiv.
  rewrite <- (SF2Prim_Prim2SF (x / 0)), Hdiv.
  destruct (Prim2SF x) as [s|s| |s m e]; try destruct s; cbn; auto.
Qed.

(** Infinity over one plus infinity is NaN. *)
Lemma overflown_probability :
  infinity / (float_of_Z 1 + infinity) = nan.
Proof. reflexivity. Qed.

(** A finite float64 other than zero: [x - x] is 0, and so is
    [(x - x) / x * 100]. *)
Lemma float_finite_cases (x : float) :
  PrimFloat.is_finite x = true -> PrimFloat.is_zero x = false ->
  exists s m e, Prim2SF x = S754_finite s m e.
Proof.
  unfold PrimFloat.is_finite, PrimFloat.is_nan, PrimFloat.is_infinity,
    PrimFloat.is_zero.
  rewrite !FloatAxioms.eqb_spec, FloatAxioms.abs_spec.
  change (Prim2SF infinity) with (S754_infinity false).
  change (Prim2SF zero) with (S754_zero false).
  destruct (Prim2SF x) as [s|s| |s m e]; cbn.
  - intros _ H. discriminate H.
  - destruct s; cbn; intros H; discriminate H.
  - intros H. discriminate H.
  - intros _ _. now exists s, m, e.
Qed.

Lemma float_self_reduction (x : float) :
  PrimFloat.is_finite x = true -> PrimFloat.is_zero x = false ->
  PrimFloat.is_zero ((x - x) / x * float_of_Z 100) = true.
Proof.
  intros Hfin Hnz.
  destruct (float_finite_cases x Hfin Hnz) as (s & m & e & Hx).
  unfold PrimFloat.is_zero.
  rewrite FloatAxioms.eqb_spec, FloatAxioms.mul_spec, FloatAxioms.div_spec,
    FloatAxioms.sub_spec, Hx.
  unfold SF64sub, SFsub. cbv zeta. rewrite Z.sub_diag.
  destruct s; reflexivity.
Qed.

Variable np_exp : float -> float.
Local Abbreviation F := (float_arith np_exp).
Implicit Types (d : pydict float) (h : heap float) (r : ref).

Lemma counterfactual_is_ok d :
  is_ok (risk_value (A := F) d) = true ->
  is_ok (risk_value (A := F) (counterfactual (A := F) d)) = true.
Proof.
  rewrite !risk_value_is_ok. intros Hsub k Hk.
  unfold counterfactual in Hk.
  apply dict_keys_set in Hk. destruct Hk as [->|Hk].
  { rewrite table_keys. simpl. tauto. }
  apply dict_keys_set in Hk. destruct Hk as [->|Hk].
  { rewrite table_keys. simpl. tauto. }
  now apply Hsub.
Qed.

(** C3, as the code has it: when the current risk is exactly 0,
    [calculate_smoking_cessation_benefit] raises nothing.  It returns a
    triple whose current risk is 0 and whose relative risk reduction is
    the float64 quotient by zero times 100: NaN or an infinity. *)
Theorem C3_zero_risk_divides_silently h r :
  fst (calculate_risk (A := F) r h) = Ok 0 ->
  exists reduction_percent no_smoking_percent,
    fst (calculate_smoking_cessation_benefit (A := F) r h)
    = Ok (reduction_percent, 0, no_smoking_percent)
    /\ (reduction_percent = nan
        \/ reduction_percent = infinity
        \/ reduction_percent = neg_infinity).
Proof.
  rewrite calculate_risk_run. cbn [fst]. intros Hcur.
  assert (Hok : is_ok (risk_value (A := F) (objs h r)) = true)
    by now rewrite Hcur.
  apply counterfactual_is_ok in Hok.
  rewrite benefit_run, Hcur.
  destruct (risk_value (counterfactual (objs h r))) as [no|e];
    [clear Hok | discriminate].
  unfold benefit_triple. cbn [fst n_sub n_div n_mul of_int F float_arith].
  exists ((0 - no) / 0 * float_of_Z 100), (no * float_of_Z 100).
  split; [reflexivity|].
  destruct (float_div_zero (0 - no)) as [->|[->| ->]]; cbn; auto.
Qed.

(** C7, as the code has it: when [np.exp] of the log-odds is +infinity,
    the probability of stability is infinity / (1 + infinity) = NaN and
    [calculate_risk] returns NaN, as a value and not as an error. *)
Theorem C7_overflow_returns_nan h r (log_odds : float) :
  fst (log_odds_of (A := F) r h) = Ok log_odds ->
  np_exp log_odds = infinity ->
  np_exp log_odds / (float_of_Z 1 + np_exp log_odds) = nan
  /\ calculate_risk (A := F) r h = (Ok nan, h).
Proof.
  intros HL Hinf. split.
  - rewrite Hinf. reflexivity.
  - unfold calculate_risk, bind. rewrite log_odds_of_run in *.
    cbn [fst] in HL. rewrite HL.
    cbn [n_exp n_div n_add n_sub of_int F float_arith].
    rewrite Hinf. reflexivity.
Qed.

(** What C8 says, in binary64: it holds whenever the current risk is a
    finite number other than zero (it is NaN after an overflow). *)
Lemma non_smoker_gains_nothing_float h r (current_risk : float) :
  dict_get (objs h r) "Current Smoker" = Some 0 ->
  dict_get (objs h r) "BpwMS * Current Smoker" = Some 0 ->
  fst (calculate_risk (A := F) r h) = Ok current_risk ->
  PrimFloat.is_finite current_risk = true ->
  PrimFloat.is_zero current_risk = false ->
  exists reduction_percent,
    fst (calculate_smoking_cessation_benefit (A := F) r h)
    = Ok (reduction_percent,
          current_risk * float_of_Z 100, current_risk * float_of_Z 100)
    /\ PrimFloat.is_zero reduction_percent = true.
Proof.
  intros Hcs Hbcs Hcur Hfin Hnz.
  rewrite calculate_risk_run in Hcur. cbn [fst] in Hcur.
  rewrite benefit_run.
  rewrite (counterfactual_of_non_smoker (A := F) (objs h r) Hcs Hbcs), Hcur.
  unfold benefit_triple. cbn [fst n_sub n_div n_mul of_int float_arith].
  eexists. split; [reflexivity|].
  now apply float_self_reduction.
Qed.

End FloatModel.

(** ** The model on concrete inputs *)

Section Examples.

(** The scenario of the specification: the log-odds of the sidebar
    defaults. *)
Example default_log_odds : weighted_sum default_inputs_R = 3.36755%R.
Proof. unfold weighted_sum, default_inputs_R. cbn. lra. Qed.

Example default_log_odds_float :
  fst (log_odds_of (A := float_arith exp_by_squaring) 0
         (store_of default_inputs))
  = Ok 3.3675499999999987%float.
Proof. reflexivity. Qed.

Example non_bpwms_smoker_risk_rises :
  (logistic_risk (weighted_sum non_bpwms_smoker_R)
   < logistic_risk (weighted_sum (counterfactual non_bpwms_smoker_R)))%R.
Proof.
  apply cessation_raises_risk_without_interaction; cbn; f_equal; lra.
Qed.

Lemma C1_witness :
  calculate_risk 0 (store_of default_inputs_R)
  = (Ok (1 - exp (weighted_sum default_inputs_R)
             / (1 + exp (weighted_sum default_inputs_R)))%R,
     store_of default_inputs_R).
Proof.
  exact (C1_calculate_risk_formula (store_of default_inputs_R) 0
           (Permutation_refl _)).
Defined.

Lemma C2_witness :
  exists current_risk risk_no_smoking : R,
    fst (calculate_risk 0 (store_of default_inputs_R)) = Ok current_risk
    /\ fst (calculate_smoking_cessation_benefit 0
              (store_of default_inputs_R))
       = Ok ((current_risk - risk_no_smoking) / current_risk * 100,
             current_risk * 100, risk_no_smoking * 100)%R.
Proof.
  destruct (C2_benefit_triple (store_of default_inputs_R) 0
              (Permutation_refl _)) as (c & n & Hc & _ & Hb).
  exists c, n. split; [exact Hc | exact Hb].
Defined.

(** The defaults with a 200-year follow-up: [exp_by_squaring] of the
    log-odds, 73.157, is about 5.9e31, which 1 + odds cannot tell from
    odds; both risks are 0 and the reduction is 0 / 0. *)
Lemma C3_counterexample :
  fst (calculate_risk (A := float_arith exp_by_squaring) 0
         (store_of long_follow_up))
  = Ok 0%float
  /\ fst (calculate_smoking_cessation_benefit
            (A := float_arith exp_by_squaring) 0 (store_of long_follow_up))
     = Ok (nan, 0%float, 0%float).
Proof. split; reflexivity. Qed.

Lemma C3_witness :
  exists reduction_percent no_smoking_percent : float,
    fst (calculate_smoking_cessation_benefit
           (A := float_arith exp_by_squaring) 0 (store_of long_follow_up))
    = Ok (reduction_percent, 0%float, no_smoking_percent)
    /\ (reduction_percent = nan
        \/ reduction_percent = infinity
        \/ reduction_percent = neg_infinity).
Proof.
  apply (C3_zero_risk_divides_silently exp_by_squaring
           (store_of long_follow_up) 0).
  vm_compute. reflexivity.
Defined.

(** The defaults without ["Sex (Male)"]: no error, and the risk of the
    seven pairs that are there. *)
Lemma C4_counterexample :
  dict_get inputs_without_sex "Sex (Male)" = None
  /\ calculate_risk 0 (store_of inputs_without_sex)
     = (Ok (1 - exp 3.36755 / (1 + exp 3.36755))%R,
        store_of inputs_without_sex).
Proof.
  split; [reflexivity|].
  rewrite calculate_risk_run. cbn [objs store_of].
  rewrite risk_value_formula.
  - unfold logistic_risk.
    replace (weighted_sum inputs_without_sex) with 3.36755%R
      by (unfold weighted_sum, inputs_without_sex; cbn; lra).
    reflexivity.
  - unfold inputs_without_sex. cbn.
    repeat (constructor; [simpl; intuition discriminate|]).
    constructor.
  - intros k Hk. rewrite table_keys. cbn in Hk. simpl. tauto.
Qed.

Lemma C5_witness :
  objs (snd (calculate_smoking_cessation_benefit 0
               (store_of default_inputs_R))) 0
  = default_inputs_R
  /\ dict_get (objs (snd (calculate_smoking_cessation_benefit 0
                            (store_of default_inputs_R))) 1)
              "Pack-Years"
     = Some 2.5%R.
Proof.
  destruct (C5_counterfactual_frame (store_of default_inputs_R) 0
              Nat.lt_0_1 (Permutation_refl _))
    as (Hsame & _ & _ & _ & Hother & _).
  split; [exact Hsame|].
  exact (Hother "Pack-Years" ltac:(discriminate) ltac:(discriminate)).
Defined.


(** The defaults with a 2100-year follow-up: the log-odds, 739.5, is
    beyond 709.78, where binary64 exponentials overflow. *)
Lemma C7_counterexample :
  fst (log_odds_of (A := float_arith exp_by_squaring) 0
         (store_of longest_follow_up))
  = Ok 739.48685%float
  /\ exp_by_squaring 739.48685 = infinity
  /\ fst (calculate_risk (A := float_arith exp_by_squaring) 0
            (store_of longest_follow_up))
     = Ok nan.
Proof. repeat split; reflexivity. Qed.

Lemma C7_witness :
  calculate_risk (A := float_arith exp_by_squaring) 0
    (store_of longest_follow_up)
  = (Ok nan, store_of longest_follow_up).
Proof.
  refine (proj2 (C7_overflow_returns_nan exp_by_squaring
                   (store_of longest_follow_up) 0 739.48685%float _ _));
    vm_compute; reflexivity.
Defined.




End Examples.

(** ** Further properties of the two functions and of the page *)

Section FurtherProperties.
Context {num : Type} {A : Arith num}.
Local Open Scope num_scope.
Implicit Types (d : pydict num) (h : heap num) (r : ref).

Lemma terms_first_unknown pre k post d log_odds :
  (forall k', In k' pre ->
     In k' (dict_keys (log_odds_coefficients (num := num)))
     /\ In k' (dict_keys d)) ->
  dict_get (log_odds_coefficients (num := num)) k = None ->
  terms (pre ++ k :: post)%list d log_odds = Raise (KeyError k).
Proof.
  intros Hpre Hk. revert log_odds.
  induction pre as [|k0 pre IH]; intros log_odds; cbn [app terms].
  - now rewrite Hk.
  - destruct (Hpre k0 (or_introl eq_refl)) as [Ht Hd].
    rewrite (coefficient_known _ Ht).
    destruct (dict_get_In _ _ Hd) as [v ->].
    apply IH. intros k' Hk'. apply Hpre. now right.
Qed.

(** The loop stops at the first key, in insertion order, that the table
    lacks: [calculate_risk] raises the [KeyError] of that key, whatever
    comes after it, and has changed nothing. *)
Theorem calculate_risk_first_unknown_key h r pre k post :
  dict_keys (objs h r) = (pre ++ k :: post)%list ->
  (forall k', In k' pre -> In k' ("Intercept" :: covariate_names)) ->
  ~ In k ("Intercept" :: covariate_names) ->
  calculate_risk r h = (Raise (KeyError k), h).
Proof.
  intros Hkeys Hpre Hk.
  rewrite calculate_risk_run. f_equal.
  unfold risk_value, log_odds_value.
  rewrite (coefficient_known "Intercept") by (rewrite table_keys; now left).
  rewrite Hkeys, terms_first_unknown; [reflexivity| |].
  - intros k' Hk'. split.
    + rewrite table_keys. now apply Hpre.
    + rewrite Hkeys. apply in_or_app. now left.
  - apply dict_get_None. now rewrite table_keys.
Qed.

Lemma counterfactual_risk_is_ok d :
  is_ok (risk_value d) = true ->
  is_ok (risk_value (counterfactual d)) = true.
Proof.
  rewrite !risk_value_is_ok. intros Hsub k Hk.
  unfold counterfactual in Hk.
  apply dict_keys_set in Hk. destruct Hk as [->|Hk].
  { rewrite table_keys. simpl. tauto. }
  apply dict_keys_set in Hk. destruct Hk as [->|Hk].
  { rewrite table_keys. simpl. tauto. }
  now apply Hsub.
Qed.

(** [calculate_smoking_cessation_benefit] raises exactly when its first
    call of [calculate_risk] does: the second call, on the copy with the
    two smoking keys assigned, cannot raise if the first did not.  When it
    raises, it raises the exception of the first call before any copy is
    made, and the store is as it was. *)
Theorem benefit_raises_with_first_call h r :
  is_ok (fst (calculate_smoking_cessation_benefit r h))
  = is_ok (fst (calculate_risk r h))
  /\ (forall e, fst (calculate_risk r h) = Raise e ->
                calculate_smoking_cessation_benefit r h = (Raise e, h)).
Proof.
  rewrite benefit_run, calculate_risk_run. cbn [fst]. split.
  - destruct (risk_value (objs h r)) as [c|e] eqn:E; [|reflexivity].
    assert (Hok : is_ok (risk_value (objs h r)) = true) by now rewrite E.
    apply counterfactual_risk_is_ok in Hok.
    now destruct (risk_value (counterfactual (objs h r))).
  - intros e ->. reflexivity.
Qed.

Lemma widget_inputs_keys (bpwms current_smoker : Z) (pack_years : num)
                         (age_at_baseline sex_male : Z)
                         (follow_up_interval : num) :
  dict_keys (widget_inputs bpwms current_smoker pack_years age_at_baseline
                           sex_male follow_up_interval)
  = covariate_names.
Proof. reflexivity. Qed.

Lemma widget_inputs_benefit (bpwms current_smoker : Z) (pack_years : num)
                            (age_at_baseline sex_male : Z)
                            (follow_up_interval : num) :
  let inputs := widget_inputs bpwms current_smoker pack_years
                              age_at_baseline sex_male follow_up_interval in
  fst (calculate_smoking_cessation_benefit 0 (store_of inputs))
  = Ok (benefit_triple (logistic_risk (weighted_sum inputs))
                       (logistic_risk (weighted_sum (counterfactual inputs)))).
Proof.
  cbv zeta. rewrite benefit_run. cbn [objs store_of].
  rewrite !covariate_set_risk; [reflexivity| |].
  - rewrite counterfactual_covariate_set;
      rewrite widget_inputs_keys; apply Permutation_refl.
  - rewrite widget_inputs_keys. apply Permutation_refl.
Qed.


End FurtherProperties.

Section FurtherRealProperties.
Local Open Scope R_scope.
Implicit Types (d : pydict R) (h : heap R) (r : ref).

Lemma dict_keys_set_absent d k (v : R) :
  ~ In k (dict_keys d) ->
  dict_keys (dict_set d k v) = (dict_keys d ++ [k])%list.
Proof.
  induction d as [|[k' v'] d IH]; intros Hn; cbn [dict_set].
  - reflexivity.
  - destruct (String.eqb_spec k k') as [->|_].
    + exfalso. apply Hn. now left.
    + cbn [dict_keys map fst app]. f_equal.
      apply IH. intros Hin. apply Hn. now right.
Qed.

(** Assigning [v] to a key the dictionary lacks adds the key's term. *)
Lemma weighted_sum_set_new d k (v : R) :
  ~ In k (dict_keys d) ->
  weighted_sum (dict_set d k v) = weighted_sum d + CoefficientTable k * v.
Proof.
  unfold weighted_sum.
  generalize (CoefficientTable (A := R_arith) "Intercept").
  induction d as [|[k' v'] d IH]; intros a Hn; cbn [dict_set].
  - reflexivity.
  - destruct (String.eqb_spec k k') as [->|_].
    + exfalso. apply Hn. now left.
    + cbn [fold_left fst snd]. apply IH. intros Hin. apply Hn. now right.
Qed.

Lemma weighted_sum_permutation d d' :
  Permutation d d' -> weighted_sum d = weighted_sum d'.
Proof.
  unfold weighted_sum.
  generalize (CoefficientTable (A := R_arith) "Intercept").
  intros a HP. revert a.
  induction HP as [|x l l' _ IH|x y l|l l' l'' _ IH1 _ IH2]; intros a.
  - reflexivity.
  - cbn [fold_left]. apply IH.
  - cbn [fold_left]. f_equal. cbn. lra.
  - now rewrite IH1.
Qed.







End FurtherRealProperties.

Section FurtherFloatProperties.
Local Open Scope float_scope.
Variable np_exp : float -> float.
Local Abbreviation F := (float_arith np_exp).
Implicit Types (h : heap float) (r : ref).

(** In binary64, when [np.exp] of the log-odds underflows to 0, the
    probability of stability is 0 / (1 + 0) = 0 and [calculate_risk]
    returns exactly 1: at this end the risk does saturate. *)
Theorem underflow_returns_one h r (log_odds : float) :
  fst (log_odds_of (A := F) r h) = Ok log_odds ->
  np_exp log_odds = 0 ->
  calculate_risk (A := F) r h = (Ok 1, h).
Proof.
  intros HL Hzero.
  unfold calculate_risk, bind. rewrite log_odds_of_run in *.
  cbn [fst] in HL. rewrite HL.
  cbn [n_exp n_div n_add n_sub of_int float_arith].
  rewrite Hzero. reflexivity.
Qed.

End FurtherFloatProperties.

Section FurtherExamples.

Lemma calculate_risk_first_unknown_key_witness :
  calculate_risk 0 (store_of inputs_with_unknown_keys)
  = (Raise (KeyError "Weight"), store_of inputs_with_unknown_keys).
Proof.
  apply (calculate_risk_first_unknown_key
           (store_of inputs_with_unknown_keys) 0
           ["BpwMS"] "Weight" ["Pack-Years"; "Height"]).
  - reflexivity.
  - intros k' [<-|[]]. simpl. tauto.
  - simpl. intuition discriminate.
Defined.







(** The defaults with 3000 pack-years: the log-odds, -1024.5, is below
    -745.2, where binary64 exponentials underflow to 0. *)
Lemma underflow_returns_one_witness :
  calculate_risk (A := float_arith exp_by_squaring) 0
    (store_of heaviest_smoker)
  = (Ok 1%float, store_of heaviest_smoker).
Proof.
  apply (underflow_returns_one exp_by_squaring (store_of heaviest_smoker) 0
           (-1024.4752000000001)%float);
    vm_compute; reflexivity.
Defined.

End FurtherExamples.
